(** * The webhooks router (backend/app/api/routes/webhooks.py)

    A shallow embedding of the five route handlers of the [webhooks]
    router, of the parts of Python's [uuid] and [os] modules the create
    handler calls, and of the way FastAPI binds a handler's parameters and
    turns its outcome into an HTTP response. *)

From Stdlib Require Import NArith ZArith Lia List Ascii String.
From Stdlib.Strings Require Import Byte.
From stdpp Require Import base option strings gmap list.

Local Open Scope string_scope.
Local Open Scope list_scope.

(** ** Python values the handlers touch *)

(** [str(x)], Python's string conversion protocol. *)
Class Str (A : Type) := str : A -> string.

(** [int.from_bytes(bs, 'big')]. *)
Definition int_from_bytes (bs : list byte) : N :=
  fold_left (fun acc b => (acc * 256 + Byte.to_N b)%N) bs 0%N.

(** The digit that ['%x'] prints for a value below sixteen. *)
Definition hexdigit (d : N) : ascii :=
  nth (N.to_nat d) (list_ascii_of_string "0123456789abcdef") "0"%char.

(** The digits of [n] in base sixteen, most significant first, in front of
    [acc]; one digit per unit of fuel. *)
Fixpoint hex_digits (fuel : nat) (n : N) (acc : list ascii) : list ascii :=
  match fuel with
  | O => acc
  | S fuel' =>
      if (n =? 0)%N then acc
      else hex_digits fuel' (n / 16)%N (hexdigit (n mod 16)%N :: acc)
  end.

(** ['%x' % n]: no digit is lost with as much fuel as [n] has bits. *)
Definition format_x (n : N) : list ascii :=
  if (n =? 0)%N then ["0"%char] else hex_digits (N.to_nat (N.size n)) n [].

(** ['%032x' % n]: at least 32 characters, padded with zeros on the left. *)
Definition format_032x (n : N) : list ascii :=
  let digits := format_x n in
  repeat "0"%char (32 - length digits) ++ digits.

(** [int(s, 16)] on a string of hexadecimal digits. *)
Definition hex_digit_value (c : ascii) : N :=
  let n := N_of_ascii c in
  if ((48 <=? n) && (n <=? 57))%N then (n - 48)%N
  else if ((97 <=? n) && (n <=? 102))%N then (n - 87)%N
  else if ((65 <=? n) && (n <=? 70))%N then (n - 55)%N
  else 0%N.

Definition int_of_hex (s : list ascii) : N :=
  fold_left (fun acc c => (acc * 16 + hex_digit_value c)%N) s 0%N.

(** A slice [s[i:j]] of a Python string, for [0 <= i <= j]. *)
Definition slice (s : list ascii) (i j : nat) : list ascii :=
  firstn (j - i) (skipn i s).

(** [s[i:]]. *)
Definition slice_from (s : list ascii) (i : nat) : list ascii := skipn i s.

(** ** uuid.UUID *)

Module uuid.

(** A [UUID] object holds one attribute, the integer [int]. *)
Record UUID : Type := mkUUID { int : N }.

(** [UUID.__str__]:
    [hex = '%032x' % self.int] and then
    ['%s-%s-%s-%s-%s' % (hex[:8], hex[8:12], hex[12:16], hex[16:20], hex[20:])]. *)
Definition UUID_str (u : UUID) : string :=
  let hex := format_032x (int u) in
  string_of_list_ascii
    (slice hex 0 8 ++ "-"%char :: slice hex 8 12 ++ "-"%char ::
     slice hex 12 16 ++ "-"%char :: slice hex 16 20 ++ "-"%char ::
     slice_from hex 20).

(** The version and variant flags that [UUID.__init__] sets when it is
    given a [version]:
    [int &= ~(0xc000 << 48); int |= 0x8000 << 48;]
    [int &= ~(0xf000 << 64); int |= version << 76]. *)
Definition set_version (i version : N) : N :=
  let i := N.ldiff i (N.shiftl 0xc000 48) in
  let i := N.lor i (N.shiftl 0x8000 48) in
  let i := N.ldiff i (N.shiftl 0xf000 64) in
  N.lor i (N.shiftl version 76).

End uuid.
Export uuid.

#[export] Instance UUID_Str : Str UUID := UUID_str.

(** The canonical text of a UUID, as RFC 4122 writes it: five groups of
    8, 4, 4, 4 and 12 hexadecimal digits separated by hyphens. *)
Definition is_hexdigit (c : ascii) : bool :=
  let n := N_of_ascii c in
  ((48 <=? n) && (n <=? 57) || (97 <=? n) && (n <=? 102) ||
   (65 <=? n) && (n <=? 70))%N.

Fixpoint split_on (sep : ascii) (s : list ascii) : list (list ascii) :=
  match s with
  | [] => [[]]
  | c :: s' =>
      if Ascii.eqb c sep then [] :: split_on sep s'
      else match split_on sep s' with
           | g :: gs => (c :: g) :: gs
           | [] => [[c]]
           end
  end.

Definition hex_char (c : ascii) : Prop := is_hexdigit c = true.

Definition hex_group (n : nat) (g : list ascii) : bool :=
  (length g =? n)%nat && forallb is_hexdigit g.

Definition uuid_syntax (s : string) : bool :=
  match split_on "-"%char (list_ascii_of_string s) with
  | [a; b; c; d; e] =>
      hex_group 8 a && hex_group 4 b && hex_group 4 c && hex_group 4 d &&
      hex_group 12 e
  | _ => false
  end.

(** ** The hosting application

    [app.api.deps] and [app.models] are supplied by the application that
    mounts the router: the type behind [SessionDep] and the state it gives
    access to, the type behind [CurrentUser] with its [id] attribute, and
    the [Message] response model with its JSON form. *)

#[warnings="-register-all"]
Inductive Json : Type :=
| JStr (s : string)
| JList (xs : list Json)
| JDict (items : list (string * Json)).

Class HostApp : Type := {
  Session : Type;
  Store : Type;
  User : Type;
  UserId : Type;
  User_id : User -> UserId;
  UserId_Str :: Str UserId;
  Message : Type;
  Message_dump : Message -> Json
}.

(** ** Exceptions and the monad of Python code *)

Inductive Exception : Type :=
| HTTPException (status_code : Z) (detail : string)
| ValueError (msg : string).

Inductive Outcome (A : Type) : Type :=
| Return (a : A)
| Raise (e : Exception).
Arguments Return {A} a.
Arguments Raise {A} e.

Definition raised {A} (o : Outcome A) : bool :=
  match o with Raise _ => true | Return _ => false end.

Definition returned {A} (o : Outcome A) : option A :=
  match o with Return a => Some a | Raise _ => None end.

Section Handlers.
Context `{host : HostApp}.

(** What a call can read and change: the state reachable through the
    database session, and the operating system's entropy, an unbounded
    supply of bytes. *)
Record World : Type := mkWorld { db : Store; entropy : nat -> byte }.

Definition Py (A : Type) : Type := World -> Outcome A * World.

#[export] Instance Py_ret : MRet Py := fun A a w => (Return a, w).

#[export] Instance Py_bind : MBind Py := fun A B f m w =>
  match m w with
  | (Return a, w') => f a w'
  | (Raise e, w') => (Raise e, w')
  end.

#[export] Instance Py_fmap : FMap Py := fun A B f m w =>
  match m w with
  | (Return a, w') => (Return (f a), w')
  | (Raise e, w') => (Raise e, w')
  end.

Definition raise {A} (e : Exception) : Py A := fun w => (Raise e, w).

(** [os.urandom(n)]: the next [n] bytes of entropy, which are used up. *)
Definition urandom (n : nat) : Py (list byte) := fun w =>
  (Return (map (entropy w) (seq 0 n)),
   {| db := db w; entropy := fun i => entropy w (n + i)%nat |}).

(** [uuid.UUID(bytes=bytes, version=version)]. *)
Definition UUID_init (bytes : list byte) (version : option N) : Py UUID :=
  if negb (length bytes =? 16)%nat then
    raise (ValueError "bytes is not a 16-char string")
  else
    let i := int_from_bytes bytes in
    if negb (i <? 2 ^ 128)%N then
      raise (ValueError "int is out of range (need a 128-bit value)")
    else
      match version with
      | None => mret (mkUUID i)
      | Some v =>
          if negb ((1 <=? v) && (v <=? 5))%N then
            raise (ValueError "illegal version number")
          else mret (mkUUID (set_version i v))
      end.

(** [uuid.uuid4()]: [UUID(bytes=os.urandom(16), version=4)]. *)
Definition uuid4 : Py UUID :=
  bytes ← urandom 16; UUID_init bytes (Some 4%N).

(** ** The five handlers *)

Definition not_found : Exception := HTTPException 404 "Webhook not found".

Definition read_webhooks (session : Session) (current_user : User) : Py Json :=
  mret (JDict [("webhooks", JList [])]).

Definition read_webhook (session : Session) (current_user : User) (id : UUID)
  : Py Json :=
  raise (HTTPException 404 "Webhook not found").

Definition create_webhook (session : Session) (current_user : User) : Py Json :=
  u ← uuid4;
  mret (JDict [("id", JStr (str u));
               ("created_by", JStr (str (User_id current_user)))]).

Definition update_webhook (session : Session) (current_user : User) (id : UUID)
  : Py Json :=
  raise (HTTPException 404 "Webhook not found").

Definition delete_webhook (session : Session) (current_user : User) (id : UUID)
  : Py Message :=
  raise (HTTPException 404 "Webhook not found").

End Handlers.

(** ** FastAPI: routes, keyword arguments, responses *)

Inductive Method : Type := GET | POST | PUT | DELETE.

#[export] Instance Method_eq_dec : EqDecision Method.
Proof. solve_decision. Defined.

(** The annotation of a handler parameter tells FastAPI where its value
    comes from: a dependency of the application, or the request path. *)
Inductive Annotation : Type := SessionDep | CurrentUser | PathUUID.

Inductive Body : Type :=
| JSONBody (content : Json)
| TextBody (content : string).

Record Response : Type := mkResponse { status : Z; body : Body }.

Section Router.
Context `{host : HostApp}.

Definition ann_type (a : Annotation) : Type :=
  match a with
  | SessionDep => Session
  | CurrentUser => User
  | PathUUID => UUID
  end.

(** A value passed by keyword. *)
Inductive Value : Type :=
| VSession (s : Session)
| VUser (u : User)
| VUUID (i : UUID).

Definition inject (a : Annotation) : ann_type a -> Value :=
  match a with
  | SessionDep => VSession
  | CurrentUser => VUser
  | PathUUID => VUUID
  end.

Definition project (a : Annotation) (v : Value) : option (ann_type a) :=
  match a, v with
  | SessionDep, VSession s => Some s
  | CurrentUser, VUser u => Some u
  | PathUUID, VUUID i => Some i
  | _, _ => None
  end.

(** The parameter list of a [def], and the type of a function that has
    it. *)
Definition Signature : Type := list (string * Annotation).

Fixpoint fn (sig : Signature) (R : Type) : Type :=
  match sig with
  | [] => R
  | (_, a) :: sig' => ann_type a -> fn sig' R
  end.

(** A call by keyword arguments: every parameter is bound to the keyword argument of
    its name, and no keyword argument is left over; otherwise the call
    is a [TypeError] and the body does not run ([None]). *)
Fixpoint call_kwargs (sig : Signature) {R : Type}
  : fn sig R -> gmap string Value -> option R :=
  match sig with
  | [] => fun r kwargs => if decide (size kwargs = 0%nat) then Some r else None
  | (name, a) :: sig' => fun f kwargs =>
      v ← kwargs !! name;
      x ← project a v;
      call_kwargs sig' (f x) (delete name kwargs)
  end.

(** One [@router.<method>(path)] registration. *)
Record Route : Type := mkRoute {
  route_method : Method;
  route_path : string;
  route_name : string;
  route_status_code : option Z;
  route_sig : Signature;
  route_result : Type;
  route_endpoint : fn route_sig (Py route_result);
  route_dump : route_result -> Json
}.

Record APIRouter : Type := mkAPIRouter {
  prefix : string;
  tags : list string;
  routes : list Route
}.

(** [router.api_route]: the route is appended, its path behind the
    router's prefix, with no explicit status code. *)
Definition api_route (method : Method) (path name : string)
    (sig : Signature) {R : Type} (endpoint : fn sig (Py R))
    (dump : R -> Json) (rt : APIRouter) : APIRouter :=
  {| prefix := prefix rt;
     tags := tags rt;
     routes := routes rt ++
       [ {| route_method := method;
            route_path := prefix rt +:+ path;
            route_name := name;
            route_status_code := None;
            route_sig := sig;
            route_result := R;
            route_endpoint := endpoint;
            route_dump := dump |} ] |}.

Definition sig_collection : Signature :=
  [("session", SessionDep); ("current_user", CurrentUser)].

Definition sig_item : Signature :=
  [("session", SessionDep); ("current_user", CurrentUser); ("id", PathUUID)].

(** The module-level [router] after the five decorators have run. *)
Definition router : APIRouter :=
  api_route DELETE "/{id}" "delete_webhook" sig_item delete_webhook Message_dump
  (api_route PUT "/{id}" "update_webhook" sig_item update_webhook (fun j => j)
  (api_route POST "/" "create_webhook" sig_collection create_webhook (fun j => j)
  (api_route GET "/{id}" "read_webhook" sig_item read_webhook (fun j => j)
  (api_route GET "/" "read_webhooks" sig_collection read_webhooks (fun j => j)
  {| prefix := "/webhooks"; tags := ["webhooks"]; routes := [] |})))).

(** The endpoint called with keyword arguments, its result in JSON form. *)
Definition invoke (r : Route) (kwargs : gmap string Value) : option (Py Json) :=
  fmap (M := option) (fmap (M := Py) (route_dump r))
       (call_kwargs (route_sig r) (route_endpoint r) kwargs).

(** The keyword arguments FastAPI assembles for a signature: the
    application's session and authenticated user, and the parameters
    read from the path. *)
Fixpoint solve_dependencies (sig : Signature) (session : Session)
    (current_user : User) (path_params : gmap string UUID)
  : option (gmap string Value) :=
  match sig with
  | [] => Some ∅
  | (name, a) :: sig' =>
      v ← match a with
          | SessionDep => Some (VSession session)
          | CurrentUser => Some (VUser current_user)
          | PathUUID => VUUID <$> path_params !! name
          end;
      kwargs ← solve_dependencies sig' session current_user path_params;
      Some (<[name := v]> kwargs)
  end.

(** The HTTP response for the outcome of an endpoint: the route's status
    code, 200 unless set, for a returned value; the exception's status
    code and detail for an [HTTPException]; a server error otherwise. *)
Definition respond (r : Route) (o : Outcome Json) : Response :=
  match o with
  | Return content =>
      {| status := default 200%Z (route_status_code r);
         body := JSONBody content |}
  | Raise (HTTPException status_code detail) =>
      {| status := status_code;
         body := JSONBody (JDict [("detail", JStr detail)]) |}
  | Raise _ =>
      {| status := 500; body := TextBody "Internal Server Error" |}
  end.

Definition find_route (rt : APIRouter) (method : Method) (path : string)
  : option Route :=
  find (fun r => bool_decide (route_method r = method) &&
                 String.eqb (route_path r) path) (routes rt).

(** A request to the router on behalf of an authenticated user. [None]:
    no route of the router has this method and path, or its parameters
    cannot be supplied. *)
Definition request (method : Method) (path : string) (session : Session)
    (current_user : User) (path_params : gmap string UUID) (w : World)
  : option (Response * World) :=
  r ← find_route router method path;
  kwargs ← solve_dependencies (route_sig r) session current_user path_params;
  h ← invoke r kwargs;
  let '(o, w') := h w in
  Some (respond r o, w').

Definition not_found_response : Response :=
  {| status := 404;
     body := JSONBody (JDict [("detail", JStr "Webhook not found")]) |}.

(** The endpoint of route [r] runs as [f] does on the session and the
    user it is called with, and is called with both. *)
Definition runs_as (r : Route) (f : Session -> User -> Py Json) : Prop :=
  forall kwargs h,
    invoke r kwargs = Some h ->
    exists s u,
      kwargs !! "session" = Some (VSession s)
      /\ kwargs !! "current_user" = Some (VUser u)
      /\ forall w, h w = f s u w.

(** What the client sees of a request for one webhook. *)
Definition item_response (method : Method) (session : Session)
    (current_user : User) (id : UUID) (w : World) : option Response :=
  fst <$> request method "/webhooks/{id}" session current_user {["id" := id]} w.

(** A request as the application makes it, and the world after a
    history of requests. *)
Record Call : Type := mkCall {
  call_method : Method;
  call_path : string;
  call_session : Session;
  call_user : User;
  call_params : gmap string UUID
}.

Definition perform (c : Call) (w : World) : World :=
  match request (call_method c) (call_path c) (call_session c)
                (call_user c) (call_params c) w with
  | Some (_, w') => w'
  | None => w
  end.

Definition after (history : list Call) (w : World) : World :=
  fold_left (fun w c => perform c w) history w.

End Router.

(** ** A small application, to run the router on *)

Module Demo.

Record DemoUser : Type := mkUser { id : UUID; email : string }.
Record DemoMessage : Type := mkMessage { message : string }.

Definition demo_app : HostApp :=
  {| Session := unit;
     Store := gmap string string;
     User := DemoUser;
     UserId := UUID;
     User_id := id;
     UserId_Str := UUID_Str;
     Message := DemoMessage;
     Message_dump := fun m => JDict [("message", JStr (message m))] |}.

Definition alice : DemoUser :=
  {| id := mkUUID 0x123e4567e89b42d3a456426614174000;
     email := "alice@example.com" |}.

Definition some_id : UUID := mkUUID 0x0f0e0d0c0b0a49088706050403020100.

Definition world0 : World (host := demo_app) :=
  {| db := {["alice@example.com" := "row"]};
     entropy := fun i => default x00 (Byte.of_nat ((17 * i + 3) mod 256)) |}.

Definition kwargs_collection : gmap string (Value (host := demo_app)) :=
  {["session" := VSession (host := demo_app) tt;
    "current_user" := VUser (host := demo_app) alice]}.

Definition kwargs_item : gmap string (Value (host := demo_app)) :=
  <["id" := VUUID (host := demo_app) some_id]> kwargs_collection.

Definition create_route : Route (host := demo_app) :=
  mkRoute POST "/webhooks/" "create_webhook" None sig_collection Json
    (create_webhook (host := demo_app)) (fun j => j).

Definition delete_route : Route (host := demo_app) :=
  mkRoute DELETE "/webhooks/{id}" "delete_webhook" None sig_item DemoMessage
    (delete_webhook (host := demo_app)) (Message_dump (HostApp := demo_app)).

(** The endpoints of these two routes, bound to their arguments. *)
Definition create_call : Py (host := demo_app) Json :=
  (fun j => j) <$> create_webhook (host := demo_app) tt alice.

Definition delete_call : Py (host := demo_app) Json :=
  Message_dump (HostApp := demo_app)
    <$> delete_webhook (host := demo_app) tt alice some_id.

Definition history : list (Call (host := demo_app)) :=
  [ mkCall (host := demo_app) POST "/webhooks/" tt alice ∅;
    mkCall (host := demo_app) DELETE "/webhooks/{id}" tt alice {["id" := some_id]} ].

End Demo.

(** ** Reading a UUID, and the bookkeeping of requests *)

(** [UUID.variant]. *)
Inductive Variant : Type :=
| RESERVED_NCS
| RFC_4122
| RESERVED_MICROSOFT
| RESERVED_FUTURE.

Definition UUID_variant (u : UUID) : Variant :=
  if (N.land (int u) (N.shiftl 0x8000 48) =? 0)%N then RESERVED_NCS
  else if (N.land (int u) (N.shiftl 0x4000 48) =? 0)%N then RFC_4122
  else if (N.land (int u) (N.shiftl 0x2000 48) =? 0)%N then RESERVED_MICROSOFT
  else RESERVED_FUTURE.

(** [UUID.version]: the version number, which only the RFC 4122 variant
    has. *)
Definition UUID_version (u : UUID) : option N :=
  match UUID_variant u with
  | RFC_4122 => Some (N.land (N.shiftr (int u) 76) 0xf)
  | _ => None
  end.

(** [s.replace('-', '')]. *)
Definition remove_hyphens (s : list ascii) : list ascii :=
  List.filter (fun c => negb (Ascii.eqb c "-")) s.

(** The 128-bit number that a text of 32 hexadecimal digits and any
    hyphens spells; [None] for any other text. *)
Definition parse_uuid (s : string) : option UUID :=
  let hex := remove_hyphens (list_ascii_of_string s) in
  if (length hex =? 32)%nat && forallb is_hexdigit hex
  then Some (mkUUID (int_of_hex hex))
  else None.


Section Bookkeeping.
Context `{host : HostApp}.

(** The world once [n] bytes of entropy have been read. *)
Definition advance (n : nat) (w : World) : World :=
  {| db := db w; entropy := fun i => entropy w (n + i)%nat |}.

(** The UUID that [uuid4] builds from the next sixteen bytes of entropy. *)
Definition next_uuid (w : World) : UUID :=
  mkUUID (set_version (int_from_bytes (map (entropy w) (seq 0 16))) 4).

Definition is_create (c : Call) : bool :=
  bool_decide (call_method c = POST) && String.eqb (call_path c) "/webhooks/".

(** How many requests of a history reach [create_webhook]. *)
Definition creates (history : list Call) : nat :=
  length (List.filter is_create history).

End Bookkeeping.

(** A second user and a second world of the small application, with the
    entropy of the first. *)
Module DemoPair.

Definition bob : Demo.DemoUser :=
  {| Demo.id := mkUUID 0x9b2e4c1a7d3f4e5ba1c2d3e4f5061728;
     Demo.email := "bob@example.com" |}.

Definition world1 : World (host := Demo.demo_app) :=
  {| db := {["bob@example.com" := "row"; "alice@example.com" := "row"]};
     entropy := entropy Demo.world0 |}.

End DemoPair.

(** * Properties *)

(** ** Integers, bytes and hexadecimal text *)

Lemma int_from_bytes_acc (bs : list byte) (acc : N) :
  (fold_left (fun acc b => acc * 256 + Byte.to_N b) bs acc
   < (acc + 1) * 256 ^ N.of_nat (length bs))%N.
Proof.
  revert acc; induction bs as [|b bs IH]; intros acc; simpl fold_left.
  - simpl. lia.
  - specialize (IH (acc * 256 + Byte.to_N b)%N).
    pose proof (Byte.to_N_bounded b) as Hb.
    replace (N.of_nat (length (b :: bs))) with (N.succ (N.of_nat (length bs)))
      by (simpl length; lia).
    rewrite N.pow_succ_r'.
    eapply N.lt_le_trans; [exact IH|].
    rewrite N.mul_assoc. apply N.mul_le_mono_r. lia.
Qed.

Lemma int_from_bytes_bound (bs : list byte) :
  (int_from_bytes bs < 256 ^ N.of_nat (length bs))%N.
Proof.
  unfold int_from_bytes.
  pose proof (int_from_bytes_acc bs 0) as H. simpl in H. lia.
Qed.

Lemma lt_pow2_lor (a b k : N) :
  (a < 2 ^ k -> b < 2 ^ k -> N.lor a b < 2 ^ k)%N.
Proof.
  intros Ha Hb.
  destruct (N.eq_dec (N.lor a b) 0%N) as [E|E].
  - rewrite E. apply N.neq_0_lt_0, N.pow_nonzero. lia.
  - apply N.log2_lt_pow2; [lia|].
    rewrite N.log2_lor.
    destruct (N.eq_dec a 0%N) as [->|Na]; destruct (N.eq_dec b 0%N) as [->|Nb].
    + exfalso. apply E. reflexivity.
    + rewrite N.max_r by (simpl; lia). apply N.log2_lt_pow2; lia.
    + rewrite N.max_l by (simpl; lia). apply N.log2_lt_pow2; lia.
    + apply N.max_lub_lt; apply N.log2_lt_pow2; lia.
Qed.

Lemma set_version_bound (i v : N) :
  (i < 2 ^ 128 -> v <= 15 -> set_version i v < 2 ^ 128)%N.
Proof.
  intros Hi Hv. unfold set_version.
  apply lt_pow2_lor.
  - eapply N.le_lt_trans; [apply N.ldiff_le_l|].
    apply lt_pow2_lor.
    + eapply N.le_lt_trans; [apply N.ldiff_le_l|exact Hi].
    + vm_compute. reflexivity.
  - rewrite N.shiftl_mul_pow2.
    apply N.lt_le_trans with (16 * 2 ^ 76)%N; [|vm_compute; discriminate].
    apply N.mul_lt_mono_pos_r; [vm_compute; reflexivity | lia].
Qed.

Lemma hexdigit_hex (d : N) : (d < 16)%N -> hex_char (hexdigit d).
Proof.
  intros Hd. unfold hex_char, hexdigit.
  assert (N.to_nat d < 16)%nat as Hk by lia.
  generalize dependent (N.to_nat d). intros k Hk.
  do 16 (destruct k as [|k]; [reflexivity|]). lia.
Qed.

Lemma hex_digits_hex (fuel : nat) (n : N) (acc : list ascii) :
  Forall hex_char acc -> Forall hex_char (hex_digits fuel n acc).
Proof.
  revert n acc; induction fuel as [|fuel IH]; intros n acc Hacc; simpl.
  - exact Hacc.
  - destruct (n =? 0)%N; [exact Hacc|].
    apply IH. constructor; [|exact Hacc].
    apply hexdigit_hex. apply N.mod_lt. lia.
Qed.

Lemma hex_digits_length (fuel : nat) (n : N) (acc : list ascii) (k : nat) :
  (n < 16 ^ N.of_nat k)%N ->
  (length (hex_digits fuel n acc) <= k + length acc)%nat.
Proof.
  revert n acc k; induction fuel as [|fuel IH]; intros n acc k Hn; simpl.
  - lia.
  - destruct (N.eqb_spec n 0) as [->|Hn0]; [lia|].
    destruct k as [|k].
    + simpl in Hn. lia.
    + specialize (IH (n / 16)%N (hexdigit (n mod 16) :: acc) k).
      simpl length in IH.
      assert (n / 16 < 16 ^ N.of_nat k)%N as Hq.
      { apply N.Div0.div_lt_upper_bound.
        replace (N.of_nat (S k)) with (N.succ (N.of_nat k)) in Hn by lia.
        rewrite N.pow_succ_r' in Hn. exact Hn. }
      specialize (IH Hq). lia.
Qed.

Lemma hex_digit_value_hexdigit (d : N) :
  (d < 16)%N -> hex_digit_value (hexdigit d) = d.
Proof.
  intros Hd. rewrite <- (N2Nat.id d) at 2. unfold hexdigit.
  assert (N.to_nat d < 16)%nat as Hk by lia.
  generalize dependent (N.to_nat d). intros k Hk.
  do 16 (destruct k as [|k]; [reflexivity|]). lia.
Qed.

Lemma int_of_hex_acc (s : list ascii) (a : N) :
  fold_left (fun acc c => (acc * 16 + hex_digit_value c)%N) s a
  = (a * 16 ^ N.of_nat (length s) + int_of_hex s)%N.
Proof.
  unfold int_of_hex. revert a.
  induction s as [|c s IH]; intros a; cbn [fold_left].
  - cbn. lia.
  - rewrite IH, (IH (0 * 16 + hex_digit_value c)%N).
    replace (N.of_nat (length (c :: s))) with (N.succ (N.of_nat (length s)))
      by (cbn [length]; lia).
    rewrite N.pow_succ_r'. lia.
Qed.

(** With as much fuel as [n] has bits, the digits spell [n]. *)
Lemma hex_digits_value (fuel : nat) (n : N) (acc : list ascii) :
  (n < 2 ^ N.of_nat fuel)%N ->
  int_of_hex (hex_digits fuel n acc)
  = (n * 16 ^ N.of_nat (length acc) + int_of_hex acc)%N.
Proof.
  revert n acc; induction fuel as [|fuel IH]; intros n acc Hn.
  - cbn in Hn. assert (n = 0%N) as -> by lia. cbn [hex_digits]. lia.
  - cbn [hex_digits]. destruct (N.eqb_spec n 0) as [->|Hn0]; [lia|].
    replace (N.of_nat (S fuel)) with (N.succ (N.of_nat fuel)) in Hn by lia.
    rewrite N.pow_succ_r' in Hn.
    pose proof (N.Div0.div_mod n 16) as Hdiv.
    pose proof (N.mod_lt n 16 ltac:(lia)) as Hmod.
    rewrite IH by (apply N.Div0.div_lt_upper_bound; lia).
    unfold int_of_hex at 1. cbn [fold_left]. rewrite int_of_hex_acc.
    rewrite hex_digit_value_hexdigit by exact Hmod.
    replace (N.of_nat (length (hexdigit (n mod 16) :: acc)))
      with (N.succ (N.of_nat (length acc))) by (cbn [length]; lia).
    rewrite N.pow_succ_r'. nia.
Qed.

Lemma int_of_hex_format_x (n : N) : int_of_hex (format_x n) = n.
Proof.
  unfold format_x. destruct (N.eqb_spec n 0) as [->|Hn0]; [reflexivity|].
  rewrite hex_digits_value.
  - cbn. lia.
  - rewrite N2Nat.id. apply N.size_gt.
Qed.

Lemma int_of_hex_format_032x (n : N) : int_of_hex (format_032x n) = n.
Proof.
  unfold format_032x. generalize (32 - length (format_x n))%nat as k.
  induction k as [|k IH]; [apply int_of_hex_format_x|].
  cbn [repeat List.app]. unfold int_of_hex in *. cbn [fold_left]. exact IH.
Qed.

Lemma format_x_hex (n : N) : Forall hex_char (format_x n).
Proof.
  unfold format_x. destruct (n =? 0)%N.
  - repeat constructor.
  - apply hex_digits_hex. constructor.
Qed.

Lemma format_x_length (n : N) :
  (n < 2 ^ 128)%N -> (length (format_x n) <= 32)%nat.
Proof.
  intros Hn. unfold format_x. destruct (n =? 0)%N.
  - simpl. lia.
  - pose proof (hex_digits_length (N.to_nat (N.size n)) n [] 32) as H.
    simpl length in H. rewrite Nat.add_0_r in H. apply H.
    change (16 ^ N.of_nat 32)%N with (2 ^ 128)%N. exact Hn.
Qed.

Lemma format_032x_hex (n : N) : Forall hex_char (format_032x n).
Proof.
  unfold format_032x. apply Forall_app. split.
  - apply Forall_forall. intros c Hc.
    apply list_elem_of_In, repeat_spec in Hc. subst c. reflexivity.
  - apply format_x_hex.
Qed.

Lemma format_032x_length (n : N) :
  (n < 2 ^ 128)%N -> length (format_032x n) = 32%nat.
Proof.
  intros Hn. pose proof (format_x_length n Hn) as H.
  unfold format_032x. rewrite length_app, repeat_length. lia.
Qed.

Lemma hex_char_not_hyphen (c : ascii) : hex_char c -> Ascii.eqb c "-" = false.
Proof.
  intros Hc. destruct (Ascii.eqb_spec c "-") as [->|]; [|reflexivity].
  discriminate Hc.
Qed.

Lemma split_on_last (g : list ascii) :
  Forall hex_char g -> split_on "-" g = [g].
Proof.
  induction 1 as [|c g Hc _ IH]; simpl.
  - reflexivity.
  - rewrite (hex_char_not_hyphen c Hc), IH. reflexivity.
Qed.

Lemma split_on_group (g rest : list ascii) :
  Forall hex_char g ->
  split_on "-" (g ++ "-"%char :: rest) = g :: split_on "-" rest.
Proof.
  induction 1 as [|c g Hc _ IH]; simpl.
  - reflexivity.
  - rewrite (hex_char_not_hyphen c Hc), IH. reflexivity.
Qed.

Lemma hex_group_intro (n : nat) (g : list ascii) :
  length g = n -> Forall hex_char g -> hex_group n g = true.
Proof.
  intros Hl Hg. unfold hex_group.
  apply andb_true_intro. split.
  - apply Nat.eqb_eq. exact Hl.
  - apply forallb_forall. intros c Hc.
    rewrite Forall_forall in Hg. apply Hg, list_elem_of_In, Hc.
Qed.

Lemma slice_hex (s : list ascii) (i j : nat) :
  Forall hex_char s -> Forall hex_char (slice s i j).
Proof. intros Hs. unfold slice. apply Forall_take, Forall_drop, Hs. Qed.

Lemma slice_length (s : list ascii) (i j : nat) :
  (i <= j <= length s)%nat -> length (slice s i j) = (j - i)%nat.
Proof. intros H. unfold slice. rewrite length_take, length_drop. lia. Qed.

Lemma UUID_str_syntax (u : UUID) :
  (int u < 2 ^ 128)%N -> uuid_syntax (str u) = true.
Proof.
  intros Hu. unfold str, UUID_Str, UUID_str, uuid_syntax.
  pose proof (format_032x_hex (int u)) as Hhex.
  pose proof (format_032x_length (int u) Hu) as Hlen.
  set (hex := format_032x (int u)) in *.
  rewrite list_ascii_of_string_of_list_ascii.
  rewrite !split_on_group by (apply slice_hex, Hhex).
  rewrite split_on_last by (apply Forall_drop, Hhex).
  rewrite !hex_group_intro; try reflexivity;
    try (apply slice_hex, Hhex); try (apply Forall_drop, Hhex);
    try (apply slice_length; lia).
  unfold slice_from. rewrite length_drop. lia.
Qed.

(** ** Python code run on a world *)

Section Properties.
Context `{host : HostApp}.

Lemma urandom_length (n : nat) (w : World) :
  exists bs, urandom n w
             = (Return bs, {| db := db w; entropy := fun i => entropy w (n + i)%nat |})
             /\ length bs = n.
Proof.
  eexists. split; [reflexivity|].
  rewrite length_map, length_seq. reflexivity.
Qed.

Lemma UUID_init_version4 (bs : list byte) (w : World) :
  length bs = 16%nat ->
  UUID_init bs (Some 4%N) w
  = (Return (mkUUID (set_version (int_from_bytes bs) 4)), w).
Proof.
  intros Hlen. unfold UUID_init. rewrite Hlen. cbn [Nat.eqb negb].
  pose proof (int_from_bytes_bound bs) as Hb. rewrite Hlen in Hb.
  change (256 ^ N.of_nat 16)%N with (2 ^ 128)%N in Hb.
  apply N.ltb_lt in Hb. rewrite Hb. reflexivity.
Qed.

Lemma uuid4_returns (w : World) :
  exists u, uuid4 w
            = (Return u, {| db := db w; entropy := fun i => entropy w (16 + i)%nat |})
            /\ (int u < 2 ^ 128)%N.
Proof.
  destruct (urandom_length 16 w) as (bs & Hbs & Hlen).
  exists (mkUUID (set_version (int_from_bytes bs) 4)). split.
  - unfold uuid4, mbind, Py_bind. rewrite Hbs.
    apply UUID_init_version4, Hlen.
  - cbn [int]. apply set_version_bound; [|lia].
    pose proof (int_from_bytes_bound bs) as Hb. rewrite Hlen in Hb.
    exact Hb.
Qed.

Lemma create_webhook_returns (session : Session) (current_user : User) (w : World) :
  exists u,
    create_webhook session current_user w
    = (Return (JDict [("id", JStr (str u));
                      ("created_by", JStr (str (User_id current_user)))]),
       {| db := db w; entropy := fun i => entropy w (16 + i)%nat |})
    /\ (int u < 2 ^ 128)%N.
Proof.
  destruct (uuid4_returns w) as (u & Hu & Hbound).
  exists u. split; [|exact Hbound].
  unfold create_webhook, mbind, Py_bind. rewrite Hu. reflexivity.
Qed.

(** ** Binding of keyword arguments *)

Lemma project_Some (a : Annotation) (v : Value) (x : ann_type a) :
  project a v = Some x -> v = inject a x.
Proof. destruct a, v; cbn; intros H; congruence. Qed.

Lemma call_collection {R : Type} (f : Session -> User -> R)
    (kwargs : gmap string Value) (r : R) :
  call_kwargs sig_collection f kwargs = Some r ->
  exists s u, kwargs !! "session" = Some (VSession s)
              /\ kwargs !! "current_user" = Some (VUser u)
              /\ r = f s u.
Proof.
  cbn [call_kwargs sig_collection]. intros H.
  apply bind_Some in H as (v1 & E1 & H).
  apply bind_Some in H as (s & ->%project_Some & H).
  apply bind_Some in H as (v2 & E2 & H).
  apply bind_Some in H as (u & ->%project_Some & H).
  rewrite lookup_delete_ne in E2 by discriminate.
  case_decide; [|discriminate H].
  exists s, u. repeat split; [assumption..|congruence].
Qed.

Lemma call_item {R : Type} (f : Session -> User -> UUID -> R)
    (kwargs : gmap string Value) (r : R) :
  call_kwargs sig_item f kwargs = Some r ->
  exists s u i, kwargs !! "session" = Some (VSession s)
                /\ kwargs !! "current_user" = Some (VUser u)
                /\ kwargs !! "id" = Some (VUUID i)
                /\ r = f s u i.
Proof.
  cbn [call_kwargs sig_item]. intros H.
  apply bind_Some in H as (v1 & E1 & H).
  apply bind_Some in H as (s & ->%project_Some & H).
  apply bind_Some in H as (v2 & E2 & H).
  apply bind_Some in H as (u & ->%project_Some & H).
  apply bind_Some in H as (v3 & E3 & H).
  apply bind_Some in H as (i & ->%project_Some & H).
  rewrite lookup_delete_ne in E2 by discriminate.
  rewrite !lookup_delete_ne in E3 by discriminate.
  case_decide; [|discriminate H].
  exists s, u, i. repeat split; [assumption..|congruence].
Qed.

Lemma router_routes :
  routes router =
  [ mkRoute GET "/webhooks/" "read_webhooks" None sig_collection Json
      read_webhooks (fun j => j);
    mkRoute GET "/webhooks/{id}" "read_webhook" None sig_item Json
      read_webhook (fun j => j);
    mkRoute POST "/webhooks/" "create_webhook" None sig_collection Json
      create_webhook (fun j => j);
    mkRoute PUT "/webhooks/{id}" "update_webhook" None sig_item Json
      update_webhook (fun j => j);
    mkRoute DELETE "/webhooks/{id}" "delete_webhook" None sig_item Message
      delete_webhook Message_dump ].
Proof. reflexivity. Qed.

(** Looking up the keyword arguments of a solved signature. *)
Ltac bind_kwargs :=
  repeat first
    [ rewrite lookup_insert_eq
    | rewrite lookup_delete_ne by discriminate
    | rewrite lookup_insert_ne by discriminate
    | progress cbn [mbind option_bind project] ].

(** What the endpoint of each route computes, whatever it is called
    with. *)
Lemma route_cases (r : Route) :
  r ∈ routes router ->
  runs_as r read_webhooks
  \/ runs_as r create_webhook
  \/ runs_as r (fun _ _ => raise not_found).
Proof.
  rewrite router_routes. intros Hr.
  repeat (apply elem_of_cons in Hr as [->|Hr]); [..|inversion Hr].
  1: left. 3: right; left. 2, 4, 5: right; right.
  all: intros kwargs h Hh; unfold invoke in Hh;
    cbn [route_sig route_endpoint route_dump] in Hh;
    apply fmap_Some in Hh as (g & Hg & ->).
  all: try apply call_collection in Hg as (s & u & Es & Eu & ->).
  all: try apply call_item in Hg as (s & u & i & Es & Eu & _ & ->).
  all: exists s, u; split; [assumption|]; split; [assumption|];
    intros w; try reflexivity.
  unfold fmap, Py_fmap.
  destruct (create_webhook s u w) as [[j|e] w']; reflexivity.
Qed.

Lemma request_collection (method : Method) (path name : string)
    (f : Session -> User -> Py Json) (s : Session) (u : User)
    (pp : gmap string UUID) (w : World) :
  find_route router method path
  = Some (mkRoute method path name None sig_collection Json f (fun j => j)) ->
  request method path s u pp w
  = Some (respond (mkRoute method path name None sig_collection Json f (fun j => j))
                  (fst (f s u w)), snd (f s u w)).
Proof.
  intros Hfind. unfold request. rewrite Hfind.
  cbn [mbind option_bind route_sig solve_dependencies sig_collection].
  unfold invoke. cbn [route_sig route_endpoint route_dump call_kwargs sig_collection].
  bind_kwargs.
  rewrite decide_True by reflexivity.
  cbn [fmap option_fmap option_map mbind option_bind].
  unfold fmap, Py_fmap. destruct (f s u w) as [[j|e] w']; reflexivity.
Qed.

Lemma request_item (method : Method) (path name : string) {R : Type}
    (f : Session -> User -> UUID -> Py R) (dump : R -> Json)
    (s : Session) (u : User) (i : UUID) (w : World) :
  find_route router method path
  = Some (mkRoute method path name None sig_item R f dump) ->
  request method path s u {["id" := i]} w
  = Some (respond (mkRoute method path name None sig_item R f dump)
                  (fst ((dump <$> f s u i) w)), snd ((dump <$> f s u i) w)).
Proof.
  intros Hfind. unfold request. rewrite Hfind.
  cbn [mbind option_bind route_sig solve_dependencies sig_item].
  rewrite lookup_singleton_eq.
  cbn [fmap option_fmap option_map mbind option_bind].
  unfold invoke. cbn [route_sig route_endpoint route_dump call_kwargs sig_item].
  bind_kwargs.
  rewrite decide_True by reflexivity.
  cbn [fmap option_fmap option_map mbind option_bind].
  unfold fmap, Py_fmap. destruct (f s u i w) as [[a|e] w']; reflexivity.
Qed.

Lemma request_read_webhook (s : Session) (u : User) (i : UUID) (w : World) :
  request GET "/webhooks/{id}" s u {["id" := i]} w = Some (not_found_response, w).
Proof.
  rewrite (request_item GET "/webhooks/{id}" "read_webhook" read_webhook (fun j => j))
    by reflexivity.
  reflexivity.
Qed.

Lemma request_update_webhook (s : Session) (u : User) (i : UUID) (w : World) :
  request PUT "/webhooks/{id}" s u {["id" := i]} w = Some (not_found_response, w).
Proof.
  rewrite (request_item PUT "/webhooks/{id}" "update_webhook" update_webhook
             (fun j => j)) by reflexivity.
  reflexivity.
Qed.

Lemma request_delete_webhook (s : Session) (u : User) (i : UUID) (w : World) :
  request DELETE "/webhooks/{id}" s u {["id" := i]} w = Some (not_found_response, w).
Proof.
  rewrite (request_item DELETE "/webhooks/{id}" "delete_webhook" delete_webhook
             Message_dump) by reflexivity.
  reflexivity.
Qed.

Lemma invoke_keeps_db (r : Route) (kwargs : gmap string Value) (h : Py Json)
    (w : World) :
  r ∈ routes router -> invoke r kwargs = Some h -> db (snd (h w)) = db w.
Proof.
  intros Hr Hh.
  destruct (route_cases r Hr) as [Hrun|[Hrun|Hrun]];
    destruct (Hrun kwargs h Hh) as (s & u & _ & _ & Hw); rewrite Hw.
  - reflexivity.
  - destruct (create_webhook_returns s u w) as (i & Hc & _).
    rewrite Hc. reflexivity.
  - reflexivity.
Qed.

Lemma perform_keeps_db (c : Call) (w : World) : db (perform c w) = db w.
Proof.
  unfold perform, request.
  destruct (find_route router (call_method c) (call_path c)) as [r|] eqn:Hfind;
    [|reflexivity].
  apply find_some in Hfind as [Hr _]. apply list_elem_of_In in Hr.
  cbn [mbind option_bind].
  destruct (solve_dependencies _ _ _ _) as [kwargs|]; [|reflexivity].
  cbn [mbind option_bind].
  destruct (invoke r kwargs) as [h|] eqn:Hh; [|reflexivity].
  cbn [mbind option_bind].
  pose proof (invoke_keeps_db r kwargs h w Hr Hh) as Hdb.
  destruct (h w) as [o w']. exact Hdb.
Qed.

Lemma after_keeps_db (history : list Call) (w : World) :
  db (after history w) = db w.
Proof.
  unfold after. revert w.
  induction history as [|c history IH]; intros w; [reflexivity|].
  cbn [fold_left]. rewrite IH. apply perform_keeps_db.
Qed.

(** ** The claims of the specification *)

(** C1: for every caller, session and world, also the world left by any
    history of earlier requests, [read_webhooks] returns the dict
    [{"webhooks": []}], and [GET /webhooks/] answers 200 with that body
    and leaves the world as it was. *)
Theorem read_webhooks_empty_list (history : list Call) (session : Session)
    (current_user : User) (pp : gmap string UUID) (w : World) :
  read_webhooks session current_user (after history w)
  = (Return (JDict [("webhooks", JList [])]), after history w)
  /\ request GET "/webhooks/" session current_user pp (after history w)
     = Some ({| status := 200;
                body := JSONBody (JDict [("webhooks", JList [])]) |},
             after history w).
Proof.
  split; [reflexivity|].
  rewrite (request_collection GET "/webhooks/" "read_webhooks" read_webhooks)
    by reflexivity.
  reflexivity.
Qed.

(** C2: for every caller, [POST /webhooks/] answers 200 with the dict
    that [create_webhook] returns: its ["id"] is a string in the
    canonical UUID syntax, its ["created_by"] is [str] of the caller's
    id, and the state behind the session is left as it was. *)
Theorem create_webhook_ok (session : Session) (current_user : User)
    (pp : gmap string UUID) (w : World) :
  exists (i : string) (w' : World),
    create_webhook session current_user w
    = (Return (JDict [("id", JStr i);
                      ("created_by", JStr (str (User_id current_user)))]), w')
    /\ request POST "/webhooks/" session current_user pp w
       = Some ({| status := 200;
                  body := JSONBody
                    (JDict [("id", JStr i);
                            ("created_by", JStr (str (User_id current_user)))]) |},
               w')
    /\ uuid_syntax i = true
    /\ db w' = db w.
Proof.
  destruct (create_webhook_returns session current_user w) as (u & Hc & Hu).
  eexists _, _. split; [exact Hc|]. split; [|split].
  - rewrite (request_collection POST "/webhooks/" "create_webhook" create_webhook)
      by reflexivity.
    rewrite Hc. reflexivity.
  - apply UUID_str_syntax, Hu.
  - reflexivity.
Qed.

(** C3: for every id, caller and world, [read_webhook] raises
    [HTTPException(404, "Webhook not found")] and returns nothing, and
    [GET /webhooks/{id}] answers 404 with that detail. *)
Theorem read_webhook_not_found (session : Session) (current_user : User)
    (id : UUID) (w : World) :
  read_webhook session current_user id w
  = (Raise (HTTPException 404 "Webhook not found"), w)
  /\ returned (fst (read_webhook session current_user id w)) = None
  /\ request GET "/webhooks/{id}" session current_user {["id" := id]} w
     = Some (not_found_response, w).
Proof.
  split; [reflexivity|]. split; [reflexivity|].
  apply request_read_webhook.
Qed.

(** C4: for every id, caller and world, [update_webhook] and
    [delete_webhook] raise [HTTPException(404, "Webhook not found")],
    and [PUT /webhooks/{id}] and [DELETE /webhooks/{id}] answer 404 with
    that detail. *)
Theorem update_delete_not_found (session : Session) (current_user : User)
    (id : UUID) (w : World) :
  update_webhook session current_user id w
  = (Raise (HTTPException 404 "Webhook not found"), w)
  /\ delete_webhook session current_user id w
     = (Raise (HTTPException 404 "Webhook not found"), w)
  /\ request PUT "/webhooks/{id}" session current_user {["id" := id]} w
     = Some (not_found_response, w)
  /\ request DELETE "/webhooks/{id}" session current_user {["id" := id]} w
     = Some (not_found_response, w).
Proof.
  split; [reflexivity|]. split; [reflexivity|]. split.
  - apply request_update_webhook.
  - apply request_delete_webhook.
Qed.

(** C5: when the endpoint of any of the five routes raises, what it
    raises is [HTTPException(404, "Webhook not found")], and the same
    endpoint raises the same exception for every other keyword
    arguments and world. *)
Theorem only_not_found (r : Route) (kwargs : gmap string Value) (h : Py Json)
    (w : World) (e : Exception) :
  r ∈ routes router -> invoke r kwargs = Some h -> fst (h w) = Raise e ->
  e = HTTPException 404 "Webhook not found"
  /\ forall kwargs' h' w',
       invoke r kwargs' = Some h' -> fst (h' w') = Raise e.
Proof.
  intros Hr Hh He.
  destruct (route_cases r Hr) as [Hrun|[Hrun|Hrun]];
    destruct (Hrun kwargs h Hh) as (s & u & _ & _ & Hw);
    rewrite Hw in He.
  - discriminate He.
  - destruct (create_webhook_returns s u w) as (i & Hc & _).
    rewrite Hc in He. discriminate He.
  - injection He as <-. split; [reflexivity|].
    intros kwargs' h' w' Hh'.
    destruct (Hrun kwargs' h' Hh') as (s' & u' & _ & _ & Hw').
    rewrite Hw'. reflexivity.
Qed.

(** C6: the endpoint of any of the five routes, whatever it is called
    with, leaves the state behind the session as it was, after one call
    and after any number of repetitions of the call; so does any
    history of requests to the router. *)
Theorem handlers_keep_db (r : Route) (kwargs : gmap string Value) (h : Py Json)
    (w : World) (n : nat) (history : list Call) :
  r ∈ routes router -> invoke r kwargs = Some h ->
  db (snd (h w)) = db w
  /\ db (Nat.iter n (fun w => snd (h w)) w) = db w
  /\ db (after history w) = db w.
Proof.
  intros Hr Hh.
  split; [apply (invoke_keeps_db r kwargs h w Hr Hh)|].
  split; [|apply after_keeps_db].
  induction n as [|n IH]; [reflexivity|].
  rewrite Nat.iter_succ, (invoke_keeps_db r kwargs h _ Hr Hh). exact IH.
Qed.

(** C7: the router has five routes; each declares the parameters
    [session: SessionDep] and [current_user: CurrentUser], and its
    endpoint runs only when it is called with a session and a user. *)
Theorem routes_need_session_and_user (r : Route) (kwargs : gmap string Value) :
  r ∈ routes router -> is_Some (invoke r kwargs) ->
  length (routes router) = 5%nat
  /\ In ("session", SessionDep) (route_sig r)
  /\ In ("current_user", CurrentUser) (route_sig r)
  /\ exists s u, kwargs !! "session" = Some (VSession s)
                 /\ kwargs !! "current_user" = Some (VUser u).
Proof.
  intros Hr [h Hh]. split; [reflexivity|].
  assert (In ("session", SessionDep) (route_sig r)
          /\ In ("current_user", CurrentUser) (route_sig r)) as [H1 H2].
  { rewrite router_routes in Hr.
    repeat (apply elem_of_cons in Hr as [->|Hr]); [..|inversion Hr];
      cbn; auto. }
  split; [exact H1|]. split; [exact H2|].
  destruct (route_cases r Hr) as [Hrun|[Hrun|Hrun]];
    destruct (Hrun kwargs h Hh) as (s & u & Es & Eu & _); eauto.
Qed.

(** C8: for every caller and world, [create_webhook] returns a value
    and does not raise, where [read_webhook], [update_webhook] and
    [delete_webhook] raise. *)
Theorem create_webhook_never_raises (session : Session) (current_user : User)
    (id : UUID) (w : World) :
  (exists j, fst (create_webhook session current_user w) = Return j)
  /\ raised (fst (create_webhook session current_user w)) = false
  /\ raised (fst (read_webhook session current_user id w)) = true
  /\ raised (fst (update_webhook session current_user id w)) = true
  /\ raised (fst (delete_webhook session current_user id w)) = true.
Proof.
  destruct (create_webhook_returns session current_user w) as (u & Hc & _).
  rewrite Hc. repeat split. eexists. reflexivity.
Qed.

(** C9: for any two ids, callers, sessions and worlds, [read_webhook],
    [update_webhook] and [delete_webhook] have the same outcome, and the
    responses to GET, PUT and DELETE of [/webhooks/{id}] are the same
    404 response. *)
Theorem item_handlers_noninterferent
    (s1 s2 : Session) (u1 u2 : User) (i1 i2 : UUID) (w1 w2 : World) :
  fst (read_webhook s1 u1 i1 w1) = fst (read_webhook s2 u2 i2 w2)
  /\ fst (update_webhook s1 u1 i1 w1) = fst (update_webhook s2 u2 i2 w2)
  /\ fst (delete_webhook s1 u1 i1 w1) = fst (delete_webhook s2 u2 i2 w2)
  /\ Forall (fun method =>
               item_response method s1 u1 i1 w1 = Some not_found_response
               /\ item_response method s2 u2 i2 w2
                  = item_response method s1 u1 i1 w1)
            [GET; PUT; DELETE].
Proof.
  split; [reflexivity|]. split; [reflexivity|]. split; [reflexivity|].
  unfold item_response.
  repeat constructor;
    rewrite ?request_read_webhook, ?request_update_webhook,
      ?request_delete_webhook; reflexivity.
Qed.

(** C10: for every input, [delete_webhook] raises
    [HTTPException(404, "Webhook not found")] and returns no [Message];
    the response to [DELETE /webhooks/{id}] is the 404 response, never
    the JSON form of a [Message]. *)
Theorem delete_webhook_returns_nothing (session : Session)
    (current_user : User) (id : UUID) (w : World) :
  returned (fst (delete_webhook session current_user id w)) = None
  /\ fst (delete_webhook session current_user id w)
     = Raise (HTTPException 404 "Webhook not found")
  /\ item_response DELETE session current_user id w = Some not_found_response.
Proof.
  split; [reflexivity|]. split; [reflexivity|].
  unfold item_response. rewrite request_delete_webhook. reflexivity.
Qed.
End Properties.

(** ** The router at work on the small application *)

Example str_uuid_zero :
  str (mkUUID 0) = "00000000-0000-0000-0000-000000000000".
Proof. reflexivity. Qed.

Example str_uuid_sample :
  str (mkUUID 0x123e4567e89b42d3a456426614174000)
  = "123e4567-e89b-42d3-a456-426614174000".
Proof. vm_compute. reflexivity. Qed.

Example set_version_ones :
  str (mkUUID (set_version (N.ones 128) 4))
  = "ffffffff-ffff-4fff-bfff-ffffffffffff".
Proof. vm_compute. reflexivity. Qed.

Example uuid_syntax_sample :
  uuid_syntax "123e4567-e89b-42d3-a456-426614174000" = true
  /\ uuid_syntax "123e4567e89b42d3a456426614174000" = false
  /\ uuid_syntax "123e4567-e89b-42d3-a456-42661417400g" = false.
Proof. repeat split; vm_compute; reflexivity. Qed.

Example demo_create :
  fst <$> request (host := Demo.demo_app) POST "/webhooks/" tt Demo.alice ∅ Demo.world0
  = Some {| status := 200;
            body := JSONBody
              (JDict [("id", JStr "03142536-4758-497a-8b9c-adbecfe0f102");
                      ("created_by", JStr "123e4567-e89b-42d3-a456-426614174000")]) |}.
Proof. vm_compute. reflexivity. Qed.

Example demo_create_twice :
  let w1 := perform (host := Demo.demo_app)
              (mkCall (host := Demo.demo_app) POST "/webhooks/" tt Demo.alice ∅) Demo.world0 in
  fst <$> request (host := Demo.demo_app) POST "/webhooks/" tt Demo.alice ∅ w1
  = Some {| status := 200;
            body := JSONBody
              (JDict [("id", JStr "13243546-5768-498a-9bac-bdcedff00112");
                      ("created_by", JStr "123e4567-e89b-42d3-a456-426614174000")]) |}.
Proof. vm_compute. reflexivity. Qed.

Example demo_delete :
  item_response (host := Demo.demo_app) DELETE tt Demo.alice Demo.some_id Demo.world0
  = Some not_found_response.
Proof. vm_compute. reflexivity. Qed.

Example demo_unknown_route :
  request (host := Demo.demo_app) POST "/webhooks/{id}" tt Demo.alice
          {["id" := Demo.some_id]} Demo.world0 = None.
Proof. vm_compute. reflexivity. Qed.

Example demo_missing_user :
  invoke Demo.create_route
         {["session" := VSession (host := Demo.demo_app) tt]} = None.
Proof. vm_compute. reflexivity. Qed.

(** [only_not_found] at the delete route of the small application. *)
Lemma only_not_found_witness :
  Demo.delete_route ∈ routes router
  /\ not_found = HTTPException 404 "Webhook not found"
  /\ forall kwargs' h' w',
       invoke Demo.delete_route kwargs' = Some h' -> fst (h' w') = Raise not_found.
Proof.
  assert (Demo.delete_route ∈ routes router) as Hr
    by (do 4 apply list_elem_of_further; apply list_elem_of_here).
  split; [exact Hr|].
  apply (only_not_found (host := Demo.demo_app) Demo.delete_route Demo.kwargs_item
           Demo.delete_call Demo.world0 not_found).
  - exact Hr.
  - vm_compute. reflexivity.
  - reflexivity.
Defined.

(** [handlers_keep_db] at the create route: three calls, and a history of
    one creation and one deletion. *)
Lemma handlers_keep_db_witness :
  db (snd (Demo.create_call Demo.world0)) = db Demo.world0
  /\ db (Nat.iter 3 (fun w => snd (Demo.create_call w)) Demo.world0) = db Demo.world0
  /\ db (after Demo.history Demo.world0) = db Demo.world0.
Proof.
  apply (handlers_keep_db (host := Demo.demo_app) Demo.create_route
           Demo.kwargs_collection).
  - do 2 apply list_elem_of_further. apply list_elem_of_here.
  - reflexivity.
Defined.

(** [routes_need_session_and_user] at the create route. *)
Lemma routes_need_session_and_user_witness :
  length (routes (host := Demo.demo_app) router) = 5%nat
  /\ In ("session", SessionDep) (route_sig Demo.create_route)
  /\ In ("current_user", CurrentUser) (route_sig Demo.create_route)
  /\ exists s u, Demo.kwargs_collection !! "session" = Some (VSession s)
                 /\ Demo.kwargs_collection !! "current_user" = Some (VUser u).
Proof.
  apply (routes_need_session_and_user (host := Demo.demo_app) Demo.create_route
           Demo.kwargs_collection).
  - do 2 apply list_elem_of_further. apply list_elem_of_here.
  - exists Demo.create_call. reflexivity.
Defined.

(** * Further properties of the router *)

(** ** The text of a UUID *)

Lemma remove_hyphens_hex (l : list ascii) :
  Forall hex_char l -> remove_hyphens l = l.
Proof.
  induction 1 as [|c l Hc _ IH]; [reflexivity|].
  unfold remove_hyphens in *. cbn [List.filter].
  rewrite (hex_char_not_hyphen c Hc). cbn [negb]. rewrite IH. reflexivity.
Qed.

Lemma remove_hyphens_group (g rest : list ascii) :
  Forall hex_char g ->
  remove_hyphens (g ++ "-"%char :: rest) = g ++ remove_hyphens rest.
Proof.
  intros Hg. unfold remove_hyphens. rewrite List.filter_app.
  fold (remove_hyphens g). rewrite (remove_hyphens_hex g Hg).
  reflexivity.
Qed.

Lemma slice_then_rest (l : list ascii) (i j : nat) :
  (i <= j)%nat -> slice l i j ++ skipn j l = skipn i l.
Proof.
  intros Hij. unfold slice.
  rewrite <- (take_drop (j - i) (drop i l)) at 2.
  rewrite drop_drop. replace (i + (j - i))%nat with j by lia. reflexivity.
Qed.

Lemma UUID_str_digits (u : UUID) :
  remove_hyphens (list_ascii_of_string (str u)) = format_032x (int u).
Proof.
  unfold str, UUID_Str, UUID_str.
  pose proof (format_032x_hex (int u)) as Hhex.
  set (hex := format_032x (int u)) in *.
  rewrite list_ascii_of_string_of_list_ascii.
  rewrite !remove_hyphens_group by (apply slice_hex, Hhex).
  unfold slice_from. rewrite remove_hyphens_hex by (apply Forall_drop, Hhex).
  rewrite !slice_then_rest by lia. reflexivity.
Qed.

(** X6: the hexadecimal digits of [str(u)], hyphens removed, spell the
    integer of [u], so two UUIDs with the same text are the same UUID. *)
Theorem UUID_str_round_trip (u : UUID) :
  int_of_hex (remove_hyphens (list_ascii_of_string (str u))) = int u
  /\ forall u' : UUID, str u = str u' -> u = u'.
Proof.
  split.
  - rewrite UUID_str_digits. apply int_of_hex_format_032x.
  - intros [n'] Heq. destruct u as [n]. f_equal.
    pose proof (UUID_str_digits (mkUUID n)) as H1.
    pose proof (UUID_str_digits (mkUUID n')) as H2.
    rewrite Heq, H2 in H1. cbn [int] in H1.
    apply (f_equal int_of_hex) in H1.
    rewrite !int_of_hex_format_032x in H1. congruence.
Qed.

(** A UUID of at most 128 bits is read back from its text. *)
Lemma parse_uuid_str (u : UUID) :
  (int u < 2 ^ 128)%N -> parse_uuid (str u) = Some u.
Proof.
  intros Hu. unfold parse_uuid. rewrite UUID_str_digits.
  rewrite (format_032x_length _ Hu). cbn [Nat.eqb andb].
  assert (forallb is_hexdigit (format_032x (int u)) = true) as ->.
  { apply forallb_forall. intros c Hc.
    pose proof (format_032x_hex (int u)) as Hhex.
    rewrite Forall_forall in Hhex. apply Hhex, list_elem_of_In, Hc. }
  rewrite int_of_hex_format_032x. destruct u. reflexivity.
Qed.

(** ** The version and variant of a generated UUID *)

Lemma land_pow2 (x k : N) :
  N.land x (2 ^ k) = if N.testbit x k then (2 ^ k)%N else 0%N.
Proof.
  apply N.bits_inj. intros n.
  rewrite N.land_spec, N.pow2_bits_eqb.
  destruct (N.eqb_spec k n) as [->|Hne].
  - destruct (N.testbit x n) eqn:E.
    + rewrite N.pow2_bits_true. reflexivity.
    + rewrite N.bits_0. reflexivity.
  - rewrite andb_false_r. destruct (N.testbit x k).
    + rewrite N.pow2_bits_false by congruence. reflexivity.
    + rewrite N.bits_0. reflexivity.
Qed.

Lemma set_version_bit (i v n : N) :
  N.testbit (set_version i v) n
  = (((N.testbit i n && negb (N.testbit (N.shiftl 0xc000 48) n)
       || N.testbit (N.shiftl 0x8000 48) n)
      && negb (N.testbit (N.shiftl 0xf000 64) n))
     || N.testbit (N.shiftl v 76) n)%bool.
Proof.
  unfold set_version.
  rewrite N.lor_spec, N.ldiff_spec, N.lor_spec, N.ldiff_spec. reflexivity.
Qed.

Lemma set_version_variant (i : N) :
  UUID_variant (mkUUID (set_version i 4)) = RFC_4122.
Proof.
  unfold UUID_variant. cbn [int].
  change (N.shiftl 0x8000 48) with (2 ^ 63)%N.
  change (N.shiftl 0x4000 48) with (2 ^ 62)%N.
  rewrite !land_pow2, !set_version_bit.
  change (N.shiftl 0x8000 48) with (2 ^ 63)%N.
  change (N.testbit (2 ^ 63) 63) with true.
  change (N.testbit (N.shiftl 0xf000 64) 63) with false.
  change (N.testbit (N.shiftl 0xc000 48) 62) with true.
  change (N.testbit (2 ^ 63) 62) with false.
  change (N.testbit (N.shiftl 4 76) 62) with false.
  rewrite orb_true_r, andb_false_r. reflexivity.
Qed.

Lemma set_version_version (i : N) :
  N.land (N.shiftr (set_version i 4) 76) 0xf = 4%N.
Proof.
  apply N.bits_inj. intros n.
  rewrite N.land_spec, N.shiftr_spec by apply N.le_0_l.
  destruct (N.lt_ge_cases n 4) as [Hlt|Hge].
  - rewrite set_version_bit.
    assert (n = 0 \/ n = 1 \/ n = 2 \/ n = 3)%N as [-> | [-> | [-> | ->]]] by lia;
      cbn [N.add Pos.add Pos.succ];
      match goal with
      | |- context [N.testbit (N.shiftl 0xf000 64) ?k] =>
          change (N.testbit (N.shiftl 0xf000 64) k) with true
      end;
      rewrite andb_false_r; reflexivity.
  - rewrite (N.bits_above_log2 15 n), (N.bits_above_log2 4 n), andb_false_r;
      [reflexivity| |]; cbn; lia.
Qed.

Section MoreProperties.
Context `{host : HostApp}.

(** ** What [create_webhook] computes *)

Lemma urandom_eq (n : nat) (w : World) :
  urandom n w = (Return (map (entropy w) (seq 0 n)), advance n w).
Proof. reflexivity. Qed.

Lemma create_webhook_eq (session : Session) (current_user : User) (w : World) :
  create_webhook session current_user w
  = (Return (JDict [("id", JStr (str (next_uuid w)));
                    ("created_by", JStr (str (User_id current_user)))]),
     advance 16 w).
Proof.
  unfold create_webhook, uuid4, mbind, Py_bind. rewrite urandom_eq.
  rewrite UUID_init_version4 by (rewrite length_map, length_seq; reflexivity).
  reflexivity.
Qed.

Lemma next_uuid_bound (w : World) : (int (next_uuid w) < 2 ^ 128)%N.
Proof.
  unfold next_uuid. cbn [int]. apply set_version_bound; [|lia].
  pose proof (int_from_bytes_bound (map (entropy w) (seq 0 16))) as Hb.
  rewrite length_map, length_seq in Hb. exact Hb.
Qed.

(** X5: the id that [create_webhook] returns is the text of a UUID of
    the RFC 4122 variant and of version 4, whatever the entropy, and that
    UUID is read back from the text. *)
Theorem create_webhook_id_version4 (session : Session) (current_user : User)
    (w : World) :
  exists (u : UUID) (created_by : Json) (w' : World),
    create_webhook session current_user w
    = (Return (JDict [("id", JStr (str u)); ("created_by", created_by)]), w')
    /\ UUID_variant u = RFC_4122
    /\ UUID_version u = Some 4%N
    /\ parse_uuid (str u) = Some u.
Proof.
  exists (next_uuid w). eexists _, _.
  split; [apply create_webhook_eq|].
  assert (UUID_variant (next_uuid w) = RFC_4122) as Hvar
    by apply set_version_variant.
  split; [exact Hvar|]. split.
  - unfold UUID_version. rewrite Hvar. unfold next_uuid. cbn [int].
    rewrite set_version_version. reflexivity.
  - apply parse_uuid_str, next_uuid_bound.
Qed.

(** X7: the id that [create_webhook] returns is determined by the next
    sixteen bytes of entropy: two calls that read the same sixteen bytes
    return the same id, whatever their sessions, users and stored
    states. *)
Theorem create_webhook_id_from_entropy (s1 s2 : Session) (u1 u2 : User)
    (w1 w2 : World) :
  (forall k, (k < 16)%nat -> entropy w1 k = entropy w2 k) ->
  exists (i : string),
    fst (create_webhook s1 u1 w1)
    = Return (JDict [("id", JStr i); ("created_by", JStr (str (User_id u1)))])
    /\ fst (create_webhook s2 u2 w2)
       = Return (JDict [("id", JStr i); ("created_by", JStr (str (User_id u2)))]).
Proof.
  intros Hent. exists (str (next_uuid w1)).
  rewrite !create_webhook_eq. split; [reflexivity|].
  cbn [fst]. unfold next_uuid.
  replace (map (entropy w2) (seq 0 16)) with (map (entropy w1) (seq 0 16));
    [reflexivity|].
  apply map_ext_in. intros k Hk. apply in_seq in Hk. apply Hent. lia.
Qed.

(** ** The route table *)


(** X2: no registration hides another: each route of the router is the
    one found under its own method and path. *)
Theorem routes_not_shadowed (r : Route) :
  r ∈ routes router -> find_route router (route_method r) (route_path r) = Some r.
Proof.
  rewrite router_routes. intros Hr.
  repeat (apply elem_of_cons in Hr as [->|Hr]); [..|inversion Hr];
    reflexivity.
Qed.

(** ** Requests and what they leave behind *)

Lemma route_kinds (r : Route) :
  r ∈ routes router ->
  route_status_code r = None
  /\ ((route_method r = GET /\ route_path r = "/webhooks/"
       /\ runs_as r read_webhooks)
      \/ (route_method r = POST /\ route_path r = "/webhooks/"
          /\ runs_as r create_webhook)
      \/ (route_method r <> POST /\ route_path r = "/webhooks/{id}"
          /\ runs_as r (fun _ _ => raise not_found))).
Proof.
  rewrite router_routes. intros Hr.
  repeat (apply elem_of_cons in Hr as [->|Hr]); [..|inversion Hr];
    (split; [reflexivity|]).
  1: left. 3: right; left. 2, 4, 5: right; right.
  all: (split; [cbn; congruence|]); (split; [reflexivity|]).
  all: intros kwargs h Hh; unfold invoke in Hh;
    cbn [route_sig route_endpoint route_dump] in Hh;
    apply fmap_Some in Hh as (g & Hg & ->).
  all: try apply call_collection in Hg as (s & u & Es & Eu & ->).
  all: try apply call_item in Hg as (s & u & i & Es & Eu & _ & ->).
  all: exists s, u; split; [assumption|]; split; [assumption|];
    intros w; try reflexivity.
  unfold fmap, Py_fmap.
  destruct (create_webhook s u w) as [[j|e] w']; reflexivity.
Qed.

Lemma request_inv (method : Method) (path : string) (s : Session) (u : User)
    (pp : gmap string UUID) (w w' : World) (resp : Response) :
  request method path s u pp w = Some (resp, w') ->
  exists r kwargs h,
    r ∈ routes router /\ route_method r = method /\ route_path r = path
    /\ invoke r kwargs = Some h
    /\ resp = respond r (fst (h w)) /\ w' = snd (h w).
Proof.
  unfold request. intros H.
  apply bind_Some in H as (r & Hfind & H).
  apply bind_Some in H as (kwargs & _ & H).
  apply bind_Some in H as (h & Hh & H).
  apply find_some in Hfind as [Hr Hmatch].
  apply andb_prop in Hmatch as [Hm Hp].
  apply bool_decide_eq_true in Hm. apply String.eqb_eq in Hp.
  exists r, kwargs, h. destruct (h w) as [o w0]. injection H as <- <-.
  repeat split; try assumption. apply list_elem_of_In, Hr.
Qed.


Lemma perform_create (c : Call) (w : World) :
  is_create c = true -> perform c w = advance 16 w.
Proof.
  intros Hc. apply andb_prop in Hc as [Hm Hp].
  apply bool_decide_eq_true in Hm. apply String.eqb_eq in Hp.
  unfold perform. rewrite Hm, Hp.
  rewrite (request_collection POST "/webhooks/" "create_webhook" create_webhook)
    by reflexivity.
  rewrite create_webhook_eq. reflexivity.
Qed.

Lemma perform_other (c : Call) (w : World) :
  is_create c = false -> perform c w = w.
Proof.
  intros Hc. unfold perform.
  destruct (request _ _ _ _ _ w) as [[resp w']|] eqn:Hreq; [|reflexivity].
  apply request_inv in Hreq as (r & kwargs & h & Hr & Hm & Hp & Hh & _ & ->).
  destruct (route_kinds r Hr) as [_ [(_ & _ & Hrun)|[(Hmeth & Hpath & _)|(_ & _ & Hrun)]]].
  - destruct (Hrun kwargs h Hh) as (s0 & u0 & _ & _ & Hw). rewrite Hw.
    reflexivity.
  - exfalso. unfold is_create in Hc. rewrite <- Hm, <- Hp, Hmeth, Hpath in Hc.
    discriminate Hc.
  - destruct (Hrun kwargs h Hh) as (s0 & u0 & _ & _ & Hw). rewrite Hw.
    reflexivity.
Qed.

(** X4: a history of requests changes the world only by the entropy it
    reads, sixteen bytes for each request that reaches [create_webhook]
    and none for any other request. *)
Theorem after_entropy (history : list Call) (w : World) (k : nat) :
  db (after history w) = db w
  /\ entropy (after history w) k = entropy w (16 * creates history + k)%nat.
Proof.
  unfold after, creates. revert w.
  induction history as [|c history IH]; intros w; [split; reflexivity|].
  cbn [fold_left List.filter].
  destruct (is_create c) eqn:Hc.
  - rewrite (perform_create c w Hc).
    destruct (IH (advance 16 w)) as [Hdb Hent].
    split; [rewrite Hdb; reflexivity|].
    rewrite Hent. cbn [entropy advance length]. f_equal. lia.
  - rewrite (perform_other c w Hc). apply IH.
Qed.

(** ** Keyword arguments *)


End MoreProperties.

(** ** The further properties on the small application *)

(** [parse_uuid_str] at a UUID of the small application. *)
Lemma parse_uuid_str_witness : parse_uuid (str Demo.some_id) = Some Demo.some_id.
Proof. apply (parse_uuid_str Demo.some_id). vm_compute. reflexivity. Defined.

(** [create_webhook_id_from_entropy] for two users and two stored states
    that read the same entropy. *)
Lemma create_webhook_id_from_entropy_witness :
  exists i : string,
    fst (create_webhook (host := Demo.demo_app) tt Demo.alice Demo.world0)
    = Return (JDict [("id", JStr i);
                     ("created_by", JStr "123e4567-e89b-42d3-a456-426614174000")])
    /\ fst (create_webhook (host := Demo.demo_app) tt DemoPair.bob DemoPair.world1)
       = Return (JDict [("id", JStr i);
                        ("created_by", JStr "9b2e4c1a-7d3f-4e5b-a1c2-d3e4f5061728")]).
Proof.
  apply (create_webhook_id_from_entropy (host := Demo.demo_app)
           tt tt Demo.alice DemoPair.bob Demo.world0 DemoPair.world1).
  intros k Hk. reflexivity.
Defined.

(** [routes_not_shadowed] at the delete route. *)
Lemma routes_not_shadowed_witness :
  find_route router DELETE "/webhooks/{id}" = Some Demo.delete_route.
Proof.
  apply (routes_not_shadowed (host := Demo.demo_app) Demo.delete_route).
  do 4 apply list_elem_of_further. apply list_elem_of_here.
Defined.



Example demo_refused_keyword :
  invoke Demo.create_route Demo.kwargs_item = None.
Proof. vm_compute. reflexivity. Qed.

Example demo_entropy_after_history :
  creates Demo.history = 1%nat
  /\ entropy (after Demo.history Demo.world0) 0 = entropy Demo.world0 16.
Proof.
  split; [reflexivity|].
  destruct (after_entropy (host := Demo.demo_app) Demo.history Demo.world0 0)
    as [_ H].
  exact H.
Qed.
